(** * privatearea: the access gate, the session callback and the payment handlers

    A shallow embedding of the repository's control flow:
    - [Auth]    : [auth.js], the identity configuration and its session callback;
    - [Index]   : [pages/index.js], the [Home] component;
    - the pages and API routes the documents under the repository describe
      but whose code is not part of the sources at hand. *)

From stdpp Require Import base option strings list gmap fin_maps.
From Stdlib Require Import ZArith Lia.

Set Warnings "-register-all".
Local Open Scope string_scope.

(** ** JavaScript values shared by the server and the client *)

Module JS.

(** [session.user]: the three fields the identity library fills in, plus the
    two properties the session callback assigns.  [None] is JavaScript's
    [undefined]: the property was never assigned. *)
Record SessionUser := mkSessionUser {
  name : option string;
  email : option string;
  image : option string;
  id : option string;
  isSubscriber : option bool
}.

(** The session object handed to application code. *)
Record Session := mkSession {
  user : SessionUser;
  expires : string
}.

(** Truthiness of a property holding a boolean or [undefined]. *)
Definition truthy (b : option bool) : bool :=
  match b with
  | Some true => true
  | _ => false
  end.

End JS.

(** ** auth.js *)

Module Auth.

Inductive SessionStrategy := jwt | database.

Record SessionOptions := mkSessionOptions {
  strategy : SessionStrategy;
  maxAge : Z
}.

(** [session: { strategy: "database", maxAge: 30 * 24 * 60 * 60 }] *)
Definition session : SessionOptions :=
  {| strategy := database;
     maxAge := 30 * 24 * 60 * 60 |}.

(** The persisted user record, as the adapter returns it: the identity
    library's fields and the application's subscription flag
    ([isSubscriber Boolean @default(false)]). *)
Record AdapterUser := mkAdapterUser {
  id : string;
  email : option string;
  isSubscriber : bool
}.

(** [callbacks.session]:
    {[
      session: async ({ session, user }) => {
        if (user) {
          session.user.id = user.id
          session.user.isSubscriber = user.isSubscriber
        }
        return session
      }
    ]}
    The callback assigns two properties of [session.user] in place and
    returns the same object; the functional update below is that object
    after the two assignments. *)
Definition callbacks_session (session : JS.Session) (user : option AdapterUser)
  : JS.Session :=
  match user with
  | Some u =>
      let su := JS.user session in
      let su1 := {| JS.name := JS.name su; JS.email := JS.email su;
                    JS.image := JS.image su;
                    JS.id := Some (id u);
                    JS.isSubscriber := JS.isSubscriber su |} in
      let su2 := {| JS.name := JS.name su1; JS.email := JS.email su1;
                    JS.image := JS.image su1;
                    JS.id := JS.id su1;
                    JS.isSubscriber := Some (isSubscriber u) |} in
      {| JS.user := su2; JS.expires := JS.expires session |}
  | None => session
  end.

End Auth.

(** ** pages/index.js *)

Module Index.

(** What [useSession()] hands to a component: [{ data: session, status }]. *)
Record SessionContextValue := mkSessionContextValue {
  data : option JS.Session;
  status : string
}.

(** The router as the component sees it: the routes pushed so far. *)
Record NextRouter := mkNextRouter { pushed : list string }.

Definition fresh_router : NextRouter := {| pushed := [] |}.

(** A component body runs against the router and may push routes. *)
Definition Render (A : Type) : Type := NextRouter -> A * NextRouter.

Definition ret {A} (a : A) : Render A := fun r => (a, r).

Definition bind {A B} (m : Render A) (k : A -> Render B) : Render B :=
  fun r => let '(a, r') := m r in k a r'.

Definition router_push (url : string) : Render unit :=
  fun r => (tt, {| pushed := pushed r ++ [url] |}).

(** A JSX tree. *)
Inductive Element :=
| Text (s : string)
| Tag (tag : string) (props : list (string * string)) (children : list Element).

(** What the function body returns: [null], nothing ([return] alone), or a
    JSX tree. *)
Inductive Returned :=
| ReturnNull
| ReturnUndefined
| ReturnElement (e : Element).

(** The JSX of the last [return] of [Home]. *)
Definition landing : Element :=
  Tag "div" []
    [ Tag "Head" []
        [ Tag "title" [] [Text "Private Area"];
          Tag "meta" [("name", "description"); ("content", "Private Area")] [];
          Tag "link" [("rel", "icon"); ("href", "/favicon.ico")] [] ];
      Tag "div" [("className", "text-center ")]
        [ Tag "h1" [("className", " mt-20 font-extrabold text-2xl")]
            [Text "Private Area"];
          Tag "p" [("className", "mt-10")]
            [Text "Join the private area to have access to"];
          Tag "ol" [("className", "mt-10 list-inside list-decimal")]
            [ Tag "li" [] [Text "The lyrics book in PDF"];
              Tag "li" [] [Text "Exclusive 30% discount on the albums"];
              Tag "li" [] [Text "Exclusive access to preorders"] ];
          Tag "p" [("className", "mt-10")] [Text "Just $5/m"];
          Tag "div" [("className", "mt-10")]
            [ Tag "Link"
                [("className", "bg-black text-white px-5 py-2");
                 ("href", "/api/auth/signin")]
                [Text "Become a supporter"] ] ] ].

(** [Home]:
    {[
      const { data: session, status } = useSession()
      const loading = status === 'loading'
      if (loading) { return null }
      if (session) { router.push('/members'); return }
      return ( <div> ... </div> )
    ]} *)
Definition Home (ctx : SessionContextValue) : Render Returned :=
  let session := data ctx in
  let loading := String.eqb (status ctx) "loading" in
  if loading then ret ReturnNull
  else
    match session with
    | Some _ => bind (router_push "/members") (fun _ => ret ReturnUndefined)
    | None => ret (ReturnElement landing)
    end.

(** The three destinations of the access gate. *)
Inductive Destination := LandingPage | CheckoutPage | MembersPage.

(** The route of each destination: [/] is the landing page, [/join] the
    checkout page, [/members] the members page. *)
Definition route_destination (path : string) : option Destination :=
  if String.eqb path "/" then Some LandingPage
  else if String.eqb path "/join" then Some CheckoutPage
  else if String.eqb path "/members" then Some MembersPage
  else None.

(** Where a page view of [/] leaves the visitor: at the route [Home] pushed
    last, else on the landing page when [Home] rendered its JSX, else
    nowhere yet (nothing rendered, nothing pushed). *)
Definition Home_destination (ctx : SessionContextValue) : option Destination :=
  let '(out, r) := Home ctx fresh_router in
  match last (pushed r) with
  | Some path => route_destination path
  | None =>
      match out with
      | ReturnElement _ => Some LandingPage
      | _ => None
      end
  end.

(** *** The pages [Home] sends the visitor on to

    [pages/members.js] and [pages/join.js] are not among the sources. *)

(** What a page view does: it sends the visitor to another route, or it
    shows its own content. *)
Inductive PageView :=
| SentTo (path : string)
| Rendered.

(** [Home] as a page view; [None] while it renders nothing and pushes
    nothing. *)
Definition Home_view (ctx : SessionContextValue) : option PageView :=
  let '(out, r) := Home ctx fresh_router in
  match last (pushed r) with
  | Some path => Some (SentTo path)
  | None =>
      match out with
      | ReturnElement _ => Some Rendered
      | _ => None
      end
  end.

(** Modelled from the spec: [pages/members.js], which is missing from the
    sources.  "Anonymous visit to /members: redirected to landing page";
    "authenticated, flag=false, visit to /members: redirected to checkout
    page"; with the flag set the page renders the content. *)
Definition Members (session : option JS.Session) : PageView :=
  match session with
  | None => SentTo "/"
  | Some s =>
      if JS.truthy (JS.isSubscriber (JS.user s)) then Rendered
      else SentTo "/join"
  end.

(** Modelled from the spec: [pages/join.js], which is missing from the
    sources; the checkout page of the access gate, with the branches the
    login-flow document of the repository lists for it.  "Protected route -
    requires authentication; if not authenticated, redirects to /; if
    already subscriber, redirects to /members; shows subscription button." *)
Definition Join (session : option JS.Session) : PageView :=
  match session with
  | None => SentTo "/"
  | Some s =>
      if JS.truthy (JS.isSubscriber (JS.user s)) then SentTo "/members"
      else Rendered
  end.

(** One page view at [path]. *)
Definition visit (path : string) (ctx : SessionContextValue) : option PageView :=
  if String.eqb path "/" then Home_view ctx
  else if String.eqb path "/members" then Some (Members (data ctx))
  else if String.eqb path "/join" then Some (Join (data ctx))
  else None.

(** Following the redirects from [path] until a page shows its content;
    [fuel] bounds the number of page views. *)
Fixpoint follow (fuel : nat) (path : string) (ctx : SessionContextValue)
  : option Destination :=
  match fuel with
  | O => None
  | S fuel' =>
      match visit path ctx with
      | Some Rendered => route_destination path
      | Some (SentTo path') => follow fuel' path' ctx
      | None => None
      end
  end.

End Index.

(** ** The payment routes

    [pages/api/stripe/session.js] and [pages/api/stripe/success.js] are not
    among the sources; the upgrade plan quotes the call the first one makes. *)

Module Stripe.

(** The user table, by user id. *)
Abbreviation UserStore := (gmap string Auth.AdapterUser).

(** *** Checkout session initiator *)

Record Env := mkEnv {
  STRIPE_PRICE_ID : string;
  BASE_URL : string
}.

Record LineItem := mkLineItem {
  price : string;
  quantity : Z
}.

Record SessionCreateParams := mkSessionCreateParams {
  billing_address_collection : string;
  line_items : list LineItem;
  mode : string;
  success_url : string;
  cancel_url : string;
  client_reference_id : string
}.

(** The argument of [stripe.checkout.sessions.create], as quoted from
    [pages/api/stripe/session.js] in the upgrade plan:
    {[
      billing_address_collection: 'auto',
      line_items: [{ price: process.env.STRIPE_PRICE_ID, quantity: 1 }],
      mode: 'subscription',
      success_url: process.env.BASE_URL + '/success?session_id={CHECKOUT_SESSION_ID}',
      cancel_url: process.env.BASE_URL + '/cancelled',
      client_reference_id: session.user.id,
    ]} *)
Definition create_params (env : Env) (user_id : string) : SessionCreateParams :=
  {| billing_address_collection := "auto";
     line_items := [ {| price := STRIPE_PRICE_ID env; quantity := 1 |} ];
     mode := "subscription";
     success_url := BASE_URL env ++ "/success?session_id={CHECKOUT_SESSION_ID}";
     cancel_url := BASE_URL env ++ "/cancelled";
     client_reference_id := user_id |}.

(** The processor's side of the account: the checkout sessions requested so
    far. *)
Record Account := mkAccount { requested : list SessionCreateParams }.

Inductive InitiationError :=
| Unauthorized
| PaymentInitiationFailed.

Section Initiator.

(** The processor's answer to a request: the URL of the hosted payment
    page, or nothing when the request fails. *)
Variable hosted_page : SessionCreateParams -> option string.

(** [stripe.checkout.sessions.create(params)]. *)
Definition checkout_sessions_create (params : SessionCreateParams)
    (acct : Account) : option string * Account :=
  match hosted_page params with
  | Some url => (Some url, {| requested := requested acct ++ [params] |})
  | None => (None, acct)
  end.

(** The authenticated user identifier of a request: [session.user.id]. *)
Definition authenticated_user_id (session : option JS.Session) : option string :=
  s ← session; JS.id (JS.user s).

(** Modelled from the spec: the guard and the result of
    [pages/api/stripe/session.js], which is missing from the sources.
    "Input: authenticated user identifier (must be non-null; reject
    otherwise with an authorization error).  Side effect: requests a
    payment-processor-hosted session [...] embedding the user identifier
    as a correlation reference.  Output: a redirect URL to the hosted
    payment page.  No local state is mutated." *)
Definition session_handler (env : Env) (session : option JS.Session)
    (acct : Account) : (InitiationError + string) * Account :=
  match authenticated_user_id session with
  | None => (inl Unauthorized, acct)
  | Some user_id =>
      match checkout_sessions_create (create_params env user_id) acct with
      | (Some url, acct') => (inr url, acct')
      | (None, acct') => (inl PaymentInitiationFailed, acct')
      end
  end.

End Initiator.

(** *** Payment confirmation handler *)

Inductive PaymentStatus := paid | unpaid.

(** A checkout session as the processor reports it back. *)
Record CheckoutSession := mkCheckoutSession {
  reference_id : option string;
  payment_status : PaymentStatus
}.

(** The processor's checkout sessions, by payment-session reference. *)
Abbreviation Processor := (gmap string CheckoutSession).

Definition completed (cs : CheckoutSession) : bool :=
  match payment_status cs with
  | paid => true
  | unpaid => false
  end.

(** [data: { isSubscriber: true }] *)
Definition subscribe (u : Auth.AdapterUser) : Auth.AdapterUser :=
  {| Auth.id := Auth.id u; Auth.email := Auth.email u;
     Auth.isSubscriber := true |}.

(** Modelled from the spec: the lookup of [pages/api/stripe/success.js],
    which is missing from the sources.  "Input: a payment-session reference.
    Must re-verify with the payment processor that the session correlates
    to a real, completed payment before mutating state": the user a
    reference stands for, when the reference is present, known to the
    processor, paid, and tagged with the id of a stored user. *)
Definition correlated_user (processor : Processor) (db : UserStore)
    (reference : option string) : option (string * Auth.AdapterUser) :=
  r ← reference;
  cs ← processor !! r;
  if completed cs then
    uid ← reference_id cs;
    u ← db !! uid;
    Some (uid, u)
  else None.

Inductive Confirmation :=
| Upgraded (user_id : string)
| NotFound.

(** Modelled from the spec: [pages/api/stripe/success.js], which is missing
    from the sources.  "Effect: set the correlated user's subscription flag
    to true"; "a reference not correlated to any user: no mutation occurs,
    operation reports a not-found condition". *)
Definition success_handler (processor : Processor) (reference : option string)
    (db : UserStore) : Confirmation * UserStore :=
  match correlated_user processor db reference with
  | Some (uid, u) => (Upgraded uid, <[uid := subscribe u]> db)
  | None => (NotFound, db)
  end.

(** The references the handler has nothing to apply for. *)
Inductive Unusable (processor : Processor) (db : UserStore)
  : option string -> Prop :=
| missing_reference :
    Unusable processor db None
| invalid_reference r :
    processor !! r = None ->
    Unusable processor db (Some r)
| unpaid_reference r cs :
    processor !! r = Some cs -> completed cs = false ->
    Unusable processor db (Some r)
| untagged_reference r cs :
    processor !! r = Some cs -> reference_id cs = None ->
    Unusable processor db (Some r)
| unknown_user r cs uid :
    processor !! r = Some cs -> reference_id cs = Some uid ->
    db !! uid = None ->
    Unusable processor db (Some r).

End Stripe.

(** ** The sessions the identity library keeps

    The library that reads [Auth.session] is not part of the repository. *)

Module Adapter.

(** A row of the [Session] table; [expires] in milliseconds since the
    epoch. *)
Record AdapterSession := mkAdapterSession {
  sessionToken : string;
  userId : string;
  expires : Z
}.

(** The session table and the clock. *)
Record Store := mkStore {
  now : Z;
  sessions : gmap string AdapterSession
}.

Definition empty_store (t0 : Z) : Store := {| now := t0; sessions := ∅ |}.

(** A date [time] seconds after [date]. *)
Definition fromDate (time date : Z) : Z := (date + time * 1000)%Z.

(** Modelled from the spec: session issuance by the identity library, which
    is not part of the sources.  "Session: identifier, reference to User,
    expiry timestamp.  Created by the Identity Provider Adapter on
    successful login": the expiry is [maxAge] seconds after issuance. *)
Definition createSession (token user_id : string) (st : Store) : Store :=
  {| now := now st;
     sessions :=
       <[token := {| sessionToken := token; userId := user_id;
                     expires := fromDate (Auth.maxAge Auth.session) (now st) |}]>
         (sessions st) |}.

(** Modelled from the spec: a session read by the identity library, which is
    not part of the sources.  "Invalidated on expiry": an expired row is
    deleted; a live row at least [updateAge] seconds old is stamped again,
    [maxAge] seconds after the read. *)
Definition getSession (updateAge : Z) (token : string) (st : Store)
  : option AdapterSession * Store :=
  match sessions st !! token with
  | None => (None, st)
  | Some s =>
      if (expires s <? now st)%Z then
        (None, {| now := now st; sessions := delete token (sessions st) |})
      else if (expires s - Auth.maxAge Auth.session * 1000 + updateAge * 1000
               <=? now st)%Z then
        let s' := {| sessionToken := sessionToken s; userId := userId s;
                     expires := fromDate (Auth.maxAge Auth.session) (now st) |} in
        (Some s', {| now := now st; sessions := <[token := s']> (sessions st) |})
      else (Some s, st)
  end.

Definition deleteSession (token : string) (st : Store) : Store :=
  {| now := now st; sessions := delete token (sessions st) |}.

Definition tick (dt : Z) (st : Store) : Store :=
  {| now := (now st + dt)%Z; sessions := sessions st |}.

(** What can happen to the session table: time passes, a user signs in, a
    request reads its session, a user signs out. *)
Inductive step : Store -> Store -> Prop :=
| step_tick dt st :
    (0 <= dt)%Z -> step st (tick dt st)
| step_sign_in token user_id st :
    step st (createSession token user_id st)
| step_read updateAge token st :
    step st (snd (getSession updateAge token st))
| step_sign_out token st :
    step st (deleteSession token st).

(** The stores the library can be in, starting with an empty table. *)
Definition reachable (st : Store) : Prop :=
  exists t0, rtc step (empty_store t0) st.

(** No stored session expires more than [maxAge] seconds from now. *)
Definition within_maxAge (st : Store) : Prop :=
  map_Forall
    (fun _ s => (expires s <= now st + Auth.maxAge Auth.session * 1000)%Z)
    (sessions st).

End Adapter.

(** ** More of pages/index.js: what [Home] renders, and renders in a row *)

Module Page.

(** The value of a prop of a JSX tag, when the tag has it. *)
Definition prop (key : string) (props : list (string * string)) : option string :=
  match List.find (fun kv => String.eqb (fst kv) key) props with
  | Some kv => Some (snd kv)
  | None => None
  end.

(** The [href]s of the [Link] components of a JSX tree, in document order. *)
Fixpoint links (e : Index.Element) : list string :=
  match e with
  | Index.Text _ => []
  | Index.Tag tag props children =>
      ((if String.eqb tag "Link" then option_list (prop "href" props) else [])
       ++ List.flat_map links children)%list
  end.

(** [n + 1] renders of [Home] in a row against the same router, as when the
    component is called again with the session context unchanged. *)
Fixpoint rerender (n : nat) (ctx : Index.SessionContextValue)
  : Index.Render Index.Returned :=
  match n with
  | O => Index.Home ctx
  | S n' => Index.bind (Index.Home ctx) (fun _ => rerender n' ctx)
  end.

End Page.

(** ** The [Home] of the upgrade plan *)

Module UpgradePlan.

(** A server component either ends in [redirect(url)], which throws and
    leaves the render, or goes on to the rest of its body. *)
Inductive ServerRender (A : Type) :=
| Redirected (url : string)
| Continued (rest : A).

Arguments Redirected {A} url.
Arguments Continued {A} rest.

(** [pages/index.js] as the plan rewrites it:
    {[
      export default async function Home() {
        const session = await auth()
        if (session) {
          redirect('/members')
        }
        // ... rest of component
      }
    ]} *)
Definition Home {A : Type} (auth : option JS.Session) (rest : A) : ServerRender A :=
  let session := auth in
  match session with
  | Some _ => Redirected "/members"
  | None => Continued rest
  end.

End UpgradePlan.

(** ** Sample data *)

Module Sample.

(** A session as the callback leaves it for a user who has not paid. *)
Definition visitor_session : JS.Session :=
  {| JS.user := {| JS.name := None; JS.email := Some "ada@example.com";
                   JS.image := None; JS.id := Some "u1";
                   JS.isSubscriber := Some false |};
     JS.expires := "2026-01-31T00:00:00.000Z" |}.

(** The same user after the payment went through. *)
Definition subscriber_session : JS.Session :=
  {| JS.user := {| JS.name := None; JS.email := Some "ada@example.com";
                   JS.image := None; JS.id := Some "u1";
                   JS.isSubscriber := Some true |};
     JS.expires := "2026-01-31T00:00:00.000Z" |}.

Definition authenticated (s : JS.Session) : Index.SessionContextValue :=
  {| Index.data := Some s; Index.status := "authenticated" |}.

Definition unauthenticated : Index.SessionContextValue :=
  {| Index.data := None; Index.status := "unauthenticated" |}.

(** Two stored users, neither a subscriber yet. *)
Definition ada : Auth.AdapterUser :=
  {| Auth.id := "u1"; Auth.email := Some "ada@example.com";
     Auth.isSubscriber := false |}.

Definition bob : Auth.AdapterUser :=
  {| Auth.id := "u2"; Auth.email := Some "bob@example.com";
     Auth.isSubscriber := false |}.

Definition users : gmap string Auth.AdapterUser :=
  <["u1" := ada]> (<["u2" := bob]> ∅).

(** The processor knows one paid checkout session, tagged with ada's id, and
    one that was never paid. *)
Definition processor : gmap string Stripe.CheckoutSession :=
  <["cs_paid" := {| Stripe.reference_id := Some "u1";
                    Stripe.payment_status := Stripe.paid |}]>
  (<["cs_open" := {| Stripe.reference_id := Some "u2";
                     Stripe.payment_status := Stripe.unpaid |}]> ∅).

Definition env : Stripe.Env :=
  {| Stripe.STRIPE_PRICE_ID := "price_1"; Stripe.BASE_URL := "http://localhost:3000" |}.

Definition account : Stripe.Account := {| Stripe.requested := [] |}.

(** A processor that answers every request with the same hosted page. *)
Definition hosted_page (_ : Stripe.SessionCreateParams) : option string :=
  Some "https://checkout.stripe.com/c/pay/cs_1".

(** One sign-in at time 0, read again a day and a bit later. *)
Definition store_after_sign_in : Adapter.Store :=
  Adapter.createSession "tok" "u1" (Adapter.empty_store 0).

Definition store_next_day : Adapter.Store :=
  Adapter.tick 90000000 store_after_sign_in.

End Sample.

(** * Properties *)

(** ** The [Home] component *)

Section HomeFacts.

Import Index.

(** The three branches of [Home], one equation each. *)

Lemma Home_loading_eq ctx r :
  status ctx = "loading" -> Home ctx r = (ReturnNull, r).
Proof.
  intros Hst. unfold Home. rewrite Hst. reflexivity.
Qed.

Lemma Home_session_eq ctx s r :
  status ctx <> "loading" -> data ctx = Some s ->
  Home ctx r = (ReturnUndefined, {| pushed := pushed r ++ ["/members"] |}).
Proof.
  intros Hst Hd. unfold Home.
  apply String.eqb_neq in Hst. rewrite Hst, Hd. reflexivity.
Qed.

Lemma Home_anonymous_eq ctx r :
  status ctx <> "loading" -> data ctx = None ->
  Home ctx r = (ReturnElement landing, r).
Proof.
  intros Hst Hd. unfold Home.
  apply String.eqb_neq in Hst. rewrite Hst, Hd. reflexivity.
Qed.

(** [Home] never reads the subscription flag: two sessions that differ in
    it, or in anything else, get the same treatment. *)
Lemma Home_ignores_flag st s1 s2 r :
  Home {| data := Some s1; status := st |} r
  = Home {| data := Some s2; status := st |} r.
Proof.
  unfold Home; simpl. destruct (String.eqb st "loading"); reflexivity.
Qed.

(** [Home] only ever pushes [/members]. *)
Lemma Home_pushes_only_members ctx r :
  pushed (snd (Home ctx r)) = pushed r
  \/ pushed (snd (Home ctx r)) = (pushed r ++ ["/members"])%list.
Proof.
  unfold Home. destruct (String.eqb (status ctx) "loading"); [by left|].
  destruct (data ctx); [by right | by left].
Qed.

(** Whatever the session context, the page view of [/] does not end at the
    checkout destination. *)
Lemma Home_never_checkout ctx : Home_destination ctx <> Some CheckoutPage.
Proof.
  unfold Home_destination, Home.
  destruct (String.eqb (status ctx) "loading"); [discriminate|].
  destruct (data ctx); discriminate.
Qed.

(** The view of [/] in each resolved state. *)
Lemma Home_view_session ctx s :
  status ctx <> "loading" -> data ctx = Some s ->
  Home_view ctx = Some (SentTo "/members").
Proof.
  intros Hst Hd. unfold Home_view.
  rewrite (Home_session_eq ctx s fresh_router Hst Hd). reflexivity.
Qed.

Lemma Home_view_anonymous ctx :
  status ctx <> "loading" -> data ctx = None -> Home_view ctx = Some Rendered.
Proof.
  intros Hst Hd. unfold Home_view.
  rewrite (Home_anonymous_eq ctx fresh_router Hst Hd). reflexivity.
Qed.

(** Following the redirects from [/], through the members page as the
    specification describes it: three page views always settle a resolved
    visitor, a non-subscriber on the checkout page, a subscriber on the
    members page, an anonymous visitor on the landing page. *)
Lemma follow_from_Home ctx :
  status ctx <> "loading" ->
  follow 3 "/" ctx
  = Some (match data ctx with
          | None => LandingPage
          | Some s =>
              if JS.truthy (JS.isSubscriber (JS.user s)) then MembersPage
              else CheckoutPage
          end).
Proof.
  intros Hst. destruct (data ctx) as [s|] eqn:Hd.
  - cbn [follow]. unfold visit at 1. cbn [String.eqb Ascii.eqb Bool.eqb].
    rewrite (Home_view_session ctx s Hst Hd).
    unfold visit at 1. cbn. rewrite Hd. cbn.
    destruct (JS.truthy (JS.isSubscriber (JS.user s))) eqn:Hf; [reflexivity|].
    unfold visit. cbn. rewrite Hd. cbn. rewrite Hf. reflexivity.
  - cbn [follow]. unfold visit at 1. cbn [String.eqb Ascii.eqb Bool.eqb].
    rewrite (Home_view_anonymous ctx Hst Hd). reflexivity.
Qed.

End HomeFacts.

(** C1 (as amended).  For every resolved session whose subscription flag is
    false, [Home] pushes the members route [/members] and renders nothing:
    the page view of [/] leaves the visitor at the members destination, the
    same as for a subscriber, and not at the checkout destination. *)
Theorem Home_session_flag_false_pushes_members
    (ctx : Index.SessionContextValue) (s : JS.Session) (r : Index.NextRouter) :
  Index.status ctx <> "loading" ->
  Index.data ctx = Some s ->
  JS.isSubscriber (JS.user s) = Some false ->
  Index.Home ctx r
    = (Index.ReturnUndefined, {| Index.pushed := Index.pushed r ++ ["/members"] |})
  /\ Index.Home_destination ctx = Some Index.MembersPage
  /\ Index.Home_destination ctx <> Some Index.CheckoutPage.
Proof.
  intros Hst Hd _. split; [|split].
  - exact (Home_session_eq ctx s r Hst Hd).
  - unfold Index.Home_destination.
    rewrite (Home_session_eq ctx s Index.fresh_router Hst Hd). reflexivity.
  - apply Home_never_checkout.
Qed.

Lemma Home_session_flag_false_pushes_members_witness :
  Index.Home (Sample.authenticated Sample.visitor_session) Index.fresh_router
    = (Index.ReturnUndefined, {| Index.pushed := ["/members"] |})
  /\ Index.Home_destination (Sample.authenticated Sample.visitor_session)
     = Some Index.MembersPage
  /\ Index.Home_destination (Sample.authenticated Sample.visitor_session)
     <> Some Index.CheckoutPage.
Proof.
  apply (Home_session_flag_false_pushes_members
           (Sample.authenticated Sample.visitor_session)
           Sample.visitor_session Index.fresh_router).
  - simpl. discriminate.
  - reflexivity.
  - reflexivity.
Defined.

(** C1 (as stated) fails: for an authenticated session whose flag is false,
    the page view of [/] ends at the members destination, not at checkout. *)
Lemma Home_session_flag_false_not_checkout :
  JS.isSubscriber (JS.user Sample.visitor_session) = Some false
  /\ Index.Home (Sample.authenticated Sample.visitor_session) Index.fresh_router
     = (Index.ReturnUndefined, {| Index.pushed := ["/members"] |})
  /\ Index.Home_destination (Sample.authenticated Sample.visitor_session)
     = Some Index.MembersPage
  /\ Index.Home_destination (Sample.authenticated Sample.visitor_session)
     <> Some Index.CheckoutPage.
Proof.
  repeat split. simpl. discriminate.
Qed.

(** C2.  For every resolved session whose subscription flag is true, [Home]
    pushes [/members]: the access gate returns the members destination. *)
Theorem Home_session_flag_true_members
    (ctx : Index.SessionContextValue) (s : JS.Session) (r : Index.NextRouter) :
  Index.status ctx <> "loading" ->
  Index.data ctx = Some s ->
  JS.isSubscriber (JS.user s) = Some true ->
  Index.Home ctx r
    = (Index.ReturnUndefined, {| Index.pushed := Index.pushed r ++ ["/members"] |})
  /\ Index.Home_destination ctx = Some Index.MembersPage.
Proof.
  intros Hst Hd _. split.
  - exact (Home_session_eq ctx s r Hst Hd).
  - unfold Index.Home_destination.
    rewrite (Home_session_eq ctx s Index.fresh_router Hst Hd). reflexivity.
Qed.

Lemma Home_session_flag_true_members_witness :
  Index.Home (Sample.authenticated Sample.subscriber_session) Index.fresh_router
    = (Index.ReturnUndefined, {| Index.pushed := ["/members"] |})
  /\ Index.Home_destination (Sample.authenticated Sample.subscriber_session)
     = Some Index.MembersPage.
Proof.
  apply (Home_session_flag_true_members
           (Sample.authenticated Sample.subscriber_session)
           Sample.subscriber_session Index.fresh_router).
  - simpl. discriminate.
  - reflexivity.
  - reflexivity.
Defined.

(** C3.  For every visitor whose session state is resolved and who has no
    session, [Home] renders the landing page and pushes no route: the access
    gate returns the landing destination.  The session context is all [Home]
    reads, so no subscription flag stored anywhere else can change this. *)
Theorem Home_no_session_landing
    (ctx : Index.SessionContextValue) (r : Index.NextRouter) :
  Index.status ctx <> "loading" ->
  Index.data ctx = None ->
  Index.Home ctx r = (Index.ReturnElement Index.landing, r)
  /\ Index.Home_destination ctx = Some Index.LandingPage.
Proof.
  intros Hst Hd. split.
  - exact (Home_anonymous_eq ctx r Hst Hd).
  - unfold Index.Home_destination.
    rewrite (Home_anonymous_eq ctx Index.fresh_router Hst Hd). reflexivity.
Qed.

Lemma Home_no_session_landing_witness :
  Index.Home Sample.unauthenticated Index.fresh_router
    = (Index.ReturnElement Index.landing, Index.fresh_router)
  /\ Index.Home_destination Sample.unauthenticated = Some Index.LandingPage.
Proof.
  apply (Home_no_session_landing Sample.unauthenticated Index.fresh_router).
  - simpl. discriminate.
  - reflexivity.
Defined.

(** C9.  While the session status is ['loading'], [Home] returns [null] and
    pushes no route, whatever the session data: the page view has no
    destination yet, in particular not the landing page. *)
Theorem Home_loading_renders_nothing
    (session : option JS.Session) (r : Index.NextRouter) :
  let ctx := {| Index.data := session; Index.status := "loading" |} in
  Index.Home ctx r = (Index.ReturnNull, r)
  /\ Index.Home_destination ctx = None
  /\ Index.Home_destination ctx <> Some Index.LandingPage
  /\ Index.Home_destination ctx <> Some Index.CheckoutPage
  /\ Index.Home_destination ctx <> Some Index.MembersPage.
Proof.
  cbv zeta. split; [|split].
  - apply Home_loading_eq. reflexivity.
  - unfold Index.Home_destination.
    rewrite Home_loading_eq by reflexivity. reflexivity.
  - unfold Index.Home_destination.
    rewrite Home_loading_eq by reflexivity. simpl.
    repeat split; discriminate.
Qed.

(** ** The session callback *)

(** C8.  When the adapter passes the persisted user to the session callback,
    the session it returns carries that user's identifier and subscription
    flag, and nothing else of the session has changed. *)
Theorem callbacks_session_carries_user
    (session : JS.Session) (user : Auth.AdapterUser) :
  let session' := Auth.callbacks_session session (Some user) in
  JS.id (JS.user session') = Some (Auth.id user)
  /\ JS.isSubscriber (JS.user session') = Some (Auth.isSubscriber user)
  /\ JS.name (JS.user session') = JS.name (JS.user session)
  /\ JS.email (JS.user session') = JS.email (JS.user session)
  /\ JS.image (JS.user session') = JS.image (JS.user session)
  /\ JS.expires session' = JS.expires session.
Proof.
  cbv zeta. unfold Auth.callbacks_session. simpl. repeat split.
Qed.

(** Without a user the callback returns the session as it came. *)
Lemma callbacks_session_no_user (session : JS.Session) :
  Auth.callbacks_session session None = session.
Proof. reflexivity. Qed.

(** The callback overwrites: whatever the two properties held before is
    gone, and calling it again with the same user changes nothing. *)
Lemma callbacks_session_idempotent (session : JS.Session) (user : Auth.AdapterUser) :
  Auth.callbacks_session (Auth.callbacks_session session (Some user)) (Some user)
  = Auth.callbacks_session session (Some user).
Proof. reflexivity. Qed.

(** ** The payment confirmation handler *)

Section ConfirmationFacts.

Import Stripe.

Implicit Types (processor : gmap string CheckoutSession).
Implicit Types (db : gmap string Auth.AdapterUser).

(** When the lookup finds a user: the reference is present, known to the
    processor, paid, tagged with a user id, and that user is stored. *)
Lemma correlated_user_Some processor db reference uid u :
  correlated_user processor db reference = Some (uid, u)
  <-> exists r cs,
        reference = Some r /\ processor !! r = Some cs /\ completed cs = true
        /\ reference_id cs = Some uid /\ db !! uid = Some u.
Proof.
  unfold correlated_user. split.
  - destruct reference as [r|]; simpl; [|discriminate].
    destruct (processor !! r) as [cs|] eqn:Hcs; simpl; [|discriminate].
    destruct (completed cs) eqn:Hpaid; [|discriminate].
    destruct (reference_id cs) as [uid'|] eqn:Htag; simpl; [|discriminate].
    destruct (db !! uid') as [u'|] eqn:Hu; simpl; [|discriminate].
    intros [= <- <-]. exists r, cs. auto.
  - intros (r & cs & -> & Hcs & Hpaid & Htag & Hu). simpl.
    rewrite Hcs. simpl. rewrite Hpaid, Htag. simpl. rewrite Hu. reflexivity.
Qed.

(** The lookup finds nothing exactly for the unusable references. *)
Lemma correlated_user_None processor db reference :
  correlated_user processor db reference = None
  <-> Unusable processor db reference.
Proof.
  unfold correlated_user. split.
  - destruct reference as [r|]; simpl; [|intros _; constructor].
    destruct (processor !! r) as [cs|] eqn:Hcs; simpl;
      [|intros _; by apply invalid_reference].
    destruct (completed cs) eqn:Hpaid;
      [|intros _; by eapply unpaid_reference].
    destruct (reference_id cs) as [uid|] eqn:Htag; simpl;
      [|intros _; by eapply untagged_reference].
    destruct (db !! uid) as [u|] eqn:Hu; simpl; [discriminate|].
    intros _. by eapply unknown_user.
  - intros [ | r Hr | r cs Hcs Hpaid | r cs Hcs Htag | r cs uid Hcs Htag Hu ];
      simpl; try reflexivity.
    + by rewrite Hr.
    + rewrite Hcs. simpl. by rewrite Hpaid.
    + rewrite Hcs. simpl. rewrite Htag. by destruct (completed cs).
    + rewrite Hcs. simpl. rewrite Htag. simpl. rewrite Hu.
      by destruct (completed cs).
Qed.

Lemma subscribe_idempotent u : subscribe (subscribe u) = subscribe u.
Proof. reflexivity. Qed.

(** After the handler has applied a reference, the same reference still
    correlates to the same user, now a subscriber. *)
Lemma correlated_user_after processor db reference uid u :
  correlated_user processor db reference = Some (uid, u) ->
  correlated_user processor (<[uid := subscribe u]> db) reference
  = Some (uid, subscribe u).
Proof.
  intros (r & cs & -> & Hcs & Hpaid & Htag & Hu)%correlated_user_Some.
  apply correlated_user_Some. exists r, cs.
  repeat split; try assumption. apply lookup_insert_eq.
Qed.

(** The handler never adds or removes a user. *)
Lemma success_handler_dom processor reference db :
  dom (snd (success_handler processor reference db)) = dom db.
Proof.
  unfold success_handler.
  destruct (correlated_user processor db reference) as [[uid u]|] eqn:Hc;
    simpl; [|reflexivity].
  apply correlated_user_Some in Hc as (r & cs & _ & _ & _ & _ & Hu).
  apply dom_insert_lookup_L. by exists u.
Qed.

(** The handler never clears a flag. *)
Lemma success_handler_monotone processor reference db uid u :
  db !! uid = Some u -> Auth.isSubscriber u = true ->
  exists u', snd (success_handler processor reference db) !! uid = Some u'
             /\ Auth.isSubscriber u' = true.
Proof.
  intros Hu Hflag. unfold success_handler.
  destruct (correlated_user processor db reference) as [[uid' v]|] eqn:Hc;
    simpl; [|eauto].
  destruct (decide (uid' = uid)) as [->|Hne].
  - rewrite lookup_insert_eq. eauto.
  - rewrite lookup_insert_ne by done. eauto.
Qed.

End ConfirmationFacts.

(** C4.  Invoking the confirmation handler a second time with the same
    payment-session reference leaves the user store as the first invocation
    left it, and reports the same outcome. *)
Theorem success_handler_idempotent
    (processor : gmap string Stripe.CheckoutSession)
    (reference : option string)
    (db : gmap string Auth.AdapterUser) :
  let once := Stripe.success_handler processor reference db in
  let twice := Stripe.success_handler processor reference (snd once) in
  snd twice = snd once /\ fst twice = fst once.
Proof.
  cbv zeta. unfold Stripe.success_handler.
  destruct (Stripe.correlated_user processor db reference) as [[uid u]|] eqn:Hc;
    simpl.
  - rewrite (correlated_user_after _ _ _ _ _ Hc). simpl.
    rewrite subscribe_idempotent, insert_insert_eq. done.
  - rewrite Hc. done.
Qed.

(** C5.  For a reference the processor reports as paid and tagged with the id
    of a stored user [u], the handler reports the upgrade of [u], sets [u]'s
    subscription flag to true, keeps the rest of [u]'s record, and leaves
    every other user's record as it was. *)
Theorem success_handler_sets_exactly_one_flag
    (processor : gmap string Stripe.CheckoutSession)
    (db : gmap string Auth.AdapterUser)
    (r : string) (cs : Stripe.CheckoutSession)
    (uid : string) (u : Auth.AdapterUser) :
  processor !! r = Some cs ->
  Stripe.completed cs = true ->
  Stripe.reference_id cs = Some uid ->
  db !! uid = Some u ->
  let '(outcome, db') := Stripe.success_handler processor (Some r) db in
  outcome = Stripe.Upgraded uid
  /\ (exists u', db' !! uid = Some u'
                 /\ Auth.isSubscriber u' = true
                 /\ Auth.id u' = Auth.id u /\ Auth.email u' = Auth.email u)
  /\ (forall other, other <> uid -> db' !! other = db !! other).
Proof.
  intros Hcs Hpaid Htag Hu.
  assert (Stripe.correlated_user processor db (Some r) = Some (uid, u)) as Hc.
  { apply correlated_user_Some. exists r, cs. auto. }
  unfold Stripe.success_handler. rewrite Hc. split; [reflexivity|]. split.
  - exists (Stripe.subscribe u). rewrite lookup_insert_eq. auto.
  - intros other Hne. by rewrite lookup_insert_ne.
Qed.

Lemma success_handler_sets_exactly_one_flag_witness :
  let '(outcome, db') :=
    Stripe.success_handler Sample.processor (Some "cs_paid") Sample.users in
  outcome = Stripe.Upgraded "u1"
  /\ (exists u', db' !! "u1" = Some u'
                 /\ Auth.isSubscriber u' = true
                 /\ Auth.id u' = Auth.id Sample.ada
                 /\ Auth.email u' = Auth.email Sample.ada)
  /\ (forall other, other <> "u1" -> db' !! other = Sample.users !! other).
Proof.
  apply (success_handler_sets_exactly_one_flag
           Sample.processor Sample.users "cs_paid"
           {| Stripe.reference_id := Some "u1";
              Stripe.payment_status := Stripe.paid |}
           "u1" Sample.ada).
  - vm_compute. reflexivity.
  - reflexivity.
  - reflexivity.
  - vm_compute. reflexivity.
Defined.

(** C6.  For a reference that is missing, unknown to the processor, not paid,
    or not tagged with the id of a stored user, the handler reports the
    not-found condition and returns the user store it was given. *)
Theorem success_handler_not_found
    (processor : gmap string Stripe.CheckoutSession)
    (db : gmap string Auth.AdapterUser)
    (reference : option string) :
  Stripe.Unusable processor db reference ->
  Stripe.success_handler processor reference db = (Stripe.NotFound, db).
Proof.
  intros Hc%correlated_user_None.
  unfold Stripe.success_handler. by rewrite Hc.
Qed.

Lemma success_handler_not_found_witness :
  Stripe.success_handler Sample.processor (Some "cs_unknown") Sample.users
  = (Stripe.NotFound, Sample.users).
Proof.
  apply (success_handler_not_found Sample.processor Sample.users (Some "cs_unknown")).
  apply Stripe.invalid_reference. vm_compute. reflexivity.
Defined.

(** ** The checkout session initiator *)

(** C7.  When the request carries no authenticated user identifier, the
    initiator answers with the authorization error, returns no payment-page
    URL, and asks nothing of the processor. *)
Theorem session_handler_rejects_anonymous
    (hosted_page : Stripe.SessionCreateParams -> option string)
    (env : Stripe.Env) (session : option JS.Session) (acct : Stripe.Account) :
  Stripe.authenticated_user_id session = None ->
  Stripe.session_handler hosted_page env session acct
    = (inl Stripe.Unauthorized, acct)
  /\ (forall url, fst (Stripe.session_handler hosted_page env session acct)
                  <> inr url).
Proof.
  intros Hid. unfold Stripe.session_handler. rewrite Hid.
  split; [reflexivity|]. intros url. simpl. discriminate.
Qed.

Lemma session_handler_rejects_anonymous_witness :
  Stripe.session_handler Sample.hosted_page Sample.env None Sample.account
    = (inl Stripe.Unauthorized, Sample.account)
  /\ (forall url,
        fst (Stripe.session_handler Sample.hosted_page Sample.env None Sample.account)
        <> inr url).
Proof.
  apply (session_handler_rejects_anonymous
           Sample.hosted_page Sample.env None Sample.account).
  reflexivity.
Defined.

(** With an identifier the initiator does ask the processor, tagging the
    request with that identifier, and hands back the processor's URL. *)
Lemma session_handler_authenticated
    (hosted_page : Stripe.SessionCreateParams -> option string)
    (env : Stripe.Env) (session : option JS.Session) (acct : Stripe.Account)
    (user_id url : string) :
  Stripe.authenticated_user_id session = Some user_id ->
  hosted_page (Stripe.create_params env user_id) = Some url ->
  Stripe.session_handler hosted_page env session acct
  = (inr url,
     {| Stripe.requested :=
          Stripe.requested acct ++ [Stripe.create_params env user_id] |}).
Proof.
  intros Hid Hurl. unfold Stripe.session_handler, Stripe.checkout_sessions_create.
  rewrite Hid, Hurl. reflexivity.
Qed.

(** ** The session configuration *)

Section SessionLifetime.

Import Adapter.

Lemma maxAge_seconds : Auth.maxAge Auth.session = 2592000%Z.
Proof. reflexivity. Qed.

Lemma within_maxAge_empty t0 : within_maxAge (empty_store t0).
Proof. unfold within_maxAge, empty_store; simpl. apply map_Forall_empty. Qed.

Lemma createSession_lookup token user_id st :
  sessions (createSession token user_id st) !! token
  = Some {| sessionToken := token; userId := user_id;
            expires := (now st + 2592000 * 1000)%Z |}.
Proof. unfold createSession; simpl. by rewrite lookup_insert_eq. Qed.

Lemma within_maxAge_tick dt st :
  (0 <= dt)%Z -> within_maxAge st -> within_maxAge (tick dt st).
Proof.
  unfold within_maxAge, tick; simpl. intros Hdt Hinv token s Hs.
  specialize (Hinv token s Hs). simpl in Hinv. lia.
Qed.

Lemma within_maxAge_createSession token user_id st :
  within_maxAge st -> within_maxAge (createSession token user_id st).
Proof.
  unfold within_maxAge, createSession; simpl. intros Hinv.
  apply map_Forall_insert_2; [|exact Hinv]. unfold fromDate; simpl. lia.
Qed.

Lemma within_maxAge_deleteSession token st :
  within_maxAge st -> within_maxAge (deleteSession token st).
Proof.
  unfold within_maxAge, deleteSession; simpl. intros Hinv.
  by apply map_Forall_delete.
Qed.

Lemma within_maxAge_getSession updateAge token st :
  within_maxAge st -> within_maxAge (snd (getSession updateAge token st)).
Proof.
  intros Hinv. unfold getSession.
  destruct (sessions st !! token) as [s|] eqn:Hs; [|exact Hinv].
  destruct (expires s <? now st)%Z.
  - exact (within_maxAge_deleteSession token st Hinv).
  - destruct (_ <=? _)%Z; [|exact Hinv].
    unfold within_maxAge in *; simpl.
    apply map_Forall_insert_2; [|exact Hinv]. unfold fromDate; simpl. lia.
Qed.

Lemma within_maxAge_step st st' :
  step st st' -> within_maxAge st -> within_maxAge st'.
Proof.
  intros [dt st0 Hdt | token user_id st0 | updateAge token st0 | token st0].
  - by apply within_maxAge_tick.
  - apply within_maxAge_createSession.
  - apply within_maxAge_getSession.
  - apply within_maxAge_deleteSession.
Qed.

Lemma within_maxAge_reachable st : reachable st -> within_maxAge st.
Proof.
  intros [t0 Hrun]. revert st Hrun. apply rtc_ind_r.
  - apply within_maxAge_empty.
  - intros st st' _ Hstep IH. exact (within_maxAge_step _ _ Hstep IH).
Qed.

(** A read never hands out an expired session. *)
Lemma getSession_live updateAge token st s :
  fst (getSession updateAge token st) = Some s -> (now st <= expires s)%Z.
Proof.
  unfold getSession.
  destruct (sessions st !! token) as [s0|]; [|discriminate].
  destruct (expires s0 <? now st)%Z eqn:Hexp; [discriminate|].
  apply Z.ltb_ge in Hexp.
  destruct (_ <=? _)%Z; intros [= <-]; [|exact Hexp].
  unfold fromDate; simpl. lia.
Qed.

End SessionLifetime.

(** C10.  The configuration selects the database session strategy and a
    maximum age of 30 days, 2592000 seconds; a session is issued with an
    expiry exactly that long after issuance; and in every store the identity
    library can reach, no session expires more than 2592000 seconds
    (2592000000 ms) after the current time. *)
Theorem session_expiry_within_30_days
    (st : Adapter.Store) (token : string) (s : Adapter.AdapterSession) :
  Adapter.reachable st ->
  Adapter.sessions st !! token = Some s ->
  Auth.strategy Auth.session = Auth.database
  /\ Auth.maxAge Auth.session = (30 * 24 * 60 * 60)%Z
  /\ Auth.maxAge Auth.session = 2592000%Z
  /\ (forall token' user_id st0,
        Adapter.expires
          <$> Adapter.sessions (Adapter.createSession token' user_id st0) !! token'
        = Some (Adapter.now st0 + 2592000 * 1000)%Z)
  /\ (Adapter.expires s - Adapter.now st <= 2592000 * 1000)%Z.
Proof.
  intros Hreach Hs. repeat split.
  - intros token' user_id st0. by rewrite createSession_lookup.
  - pose proof (within_maxAge_reachable st Hreach token s Hs) as Hinv.
    simpl in Hinv. lia.
Qed.

Lemma session_expiry_within_30_days_witness :
  Auth.strategy Auth.session = Auth.database
  /\ Auth.maxAge Auth.session = (30 * 24 * 60 * 60)%Z
  /\ Auth.maxAge Auth.session = 2592000%Z
  /\ (forall token' user_id st0,
        Adapter.expires
          <$> Adapter.sessions (Adapter.createSession token' user_id st0) !! token'
        = Some (Adapter.now st0 + 2592000 * 1000)%Z)
  /\ (2592000000 - Adapter.now Sample.store_next_day <= 2592000 * 1000)%Z.
Proof.
  apply (session_expiry_within_30_days Sample.store_next_day "tok"
           {| Adapter.sessionToken := "tok"; Adapter.userId := "u1";
              Adapter.expires := 2592000000 |}).
  - exists 0%Z. eapply rtc_l.
    + apply (Adapter.step_sign_in "tok" "u1").
    + apply rtc_once. apply (Adapter.step_tick 90000000). lia.
  - vm_compute. reflexivity.
Defined.

(** * Further properties of the code *)

(** ** [Home]: what one render does and does not do *)

(** X1.  A render of [Home] does exactly one of three things: it returns
    [null] and leaves the router alone; it returns nothing and appends
    [/members], and only that, to what the router already held; or it returns
    the landing JSX and leaves the router alone.  It never renders content
    and redirects in the same render. *)
Theorem Home_renders_or_redirects
    (ctx : Index.SessionContextValue) (r : Index.NextRouter) :
  match fst (Index.Home ctx r) with
  | Index.ReturnNull => snd (Index.Home ctx r) = r
  | Index.ReturnUndefined =>
      Index.pushed (snd (Index.Home ctx r))
      = (Index.pushed r ++ ["/members"])%list
  | Index.ReturnElement e =>
      e = Index.landing /\ snd (Index.Home ctx r) = r
  end.
Proof.
  unfold Index.Home.
  destruct (String.eqb (Index.status ctx) "loading"); [reflexivity|].
  destruct (Index.data ctx); simpl; auto.
Qed.


(** X3.  Nothing inside the session reaches [Home]'s decision: two session
    contexts with the same status, both with a session or both without, get
    the same result on the same router. *)
Theorem Home_reads_presence_only
    (ctx1 ctx2 : Index.SessionContextValue) (r : Index.NextRouter) :
  Index.status ctx1 = Index.status ctx2 ->
  (is_Some (Index.data ctx1) <-> is_Some (Index.data ctx2)) ->
  Index.Home ctx1 r = Index.Home ctx2 r.
Proof.
  intros Hst Hd. unfold Index.Home. rewrite Hst.
  destruct (String.eqb (Index.status ctx2) "loading"); [reflexivity|].
  destruct (Index.data ctx1) as [s1|], (Index.data ctx2) as [s2|];
    try reflexivity.
  - destruct Hd as [Hd _]. destruct Hd as [? [=]]; eauto.
  - destruct Hd as [_ Hd]. destruct Hd as [? [=]]; eauto.
Qed.

Lemma Home_reads_presence_only_witness :
  Index.Home (Sample.authenticated Sample.visitor_session) Index.fresh_router
  = Index.Home (Sample.authenticated Sample.subscriber_session) Index.fresh_router.
Proof.
  apply (Home_reads_presence_only
           (Sample.authenticated Sample.visitor_session)
           (Sample.authenticated Sample.subscriber_session)
           Index.fresh_router).
  - reflexivity.
  - split; intros _; eexists; reflexivity.
Defined.

(** ** [Home] rendered again *)

Lemma rerender_session n : forall ctx s r,
  Index.status ctx <> "loading" -> Index.data ctx = Some s ->
  Page.rerender n ctx r
  = (Index.ReturnUndefined,
     {| Index.pushed := Index.pushed r ++ replicate (S n) "/members" |}).
Proof.
  induction n as [|n IH]; intros ctx s r Hst Hd.
  - simpl Page.rerender. by rewrite (Home_session_eq ctx s r Hst Hd).
  - simpl Page.rerender. unfold Index.bind.
    rewrite (Home_session_eq ctx s r Hst Hd).
    rewrite (IH ctx s _ Hst Hd). simpl Index.pushed.
    rewrite <- (assoc_L (++)). reflexivity.
Qed.

Lemma rerender_anonymous n : forall ctx r,
  Index.status ctx <> "loading" -> Index.data ctx = None ->
  Page.rerender n ctx r = (Index.ReturnElement Index.landing, r).
Proof.
  induction n as [|n IH]; intros ctx r Hst Hd.
  - simpl. exact (Home_anonymous_eq ctx r Hst Hd).
  - simpl Page.rerender. unfold Index.bind.
    rewrite (Home_anonymous_eq ctx r Hst Hd). exact (IH ctx r Hst Hd).
Qed.

(** X4.  [Home] calls [router.push] in the body of the render, with nothing
    to remember that it has already done so: [n + 1] renders of a resolved
    session append [/members] to the router [n + 1] times.  Without a
    session the same renders leave the router as it was. *)
Theorem Home_rerender_pushes_again
    (n : nat) (ctx : Index.SessionContextValue) (r : Index.NextRouter) :
  Index.status ctx <> "loading" ->
  Index.pushed (snd (Page.rerender n ctx r))
  = (Index.pushed r
     ++ match Index.data ctx with
        | Some _ => replicate (S n) "/members"
        | None => []
        end)%list.
Proof.
  intros Hst. destruct (Index.data ctx) as [s|] eqn:Hd.
  - by rewrite (rerender_session n ctx s r Hst Hd).
  - rewrite (rerender_anonymous n ctx r Hst Hd). simpl.
    by rewrite (right_id_L [] (++)).
Qed.

Lemma Home_rerender_pushes_again_witness :
  Index.pushed
    (snd (Page.rerender 2 (Sample.authenticated Sample.visitor_session)
            Index.fresh_router))
  = ["/members"; "/members"; "/members"].
Proof.
  apply (Home_rerender_pushes_again 2
           (Sample.authenticated Sample.visitor_session) Index.fresh_router).
  simpl. discriminate.
Defined.

(** ** What the landing page offers *)

(** X5.  Whenever [Home] renders JSX, the [Link] components of the tree
    carry one [href] in all, the sign-in route [/api/auth/signin]: the landing page
    links neither to the members page nor to the checkout page.  (The
    lower-case [link] of the head, the favicon, is not a [Link].) *)
Theorem Home_only_links_to_sign_in
    (ctx : Index.SessionContextValue) (r : Index.NextRouter) (e : Index.Element) :
  fst (Index.Home ctx r) = Index.ReturnElement e ->
  Page.links e = ["/api/auth/signin"]
  /\ ("/members" ∉ Page.links e)
  /\ ("/join" ∉ Page.links e).
Proof.
  intros He. assert (e = Index.landing) as ->.
  { revert He. unfold Index.Home.
    destruct (String.eqb (Index.status ctx) "loading"); [discriminate|].
    destruct (Index.data ctx); simpl; [discriminate|]. by intros [= <-]. }
  assert (Page.links Index.landing = ["/api/auth/signin"]) as -> by reflexivity.
  split; [reflexivity|].
  split; intros [=]%list_elem_of_singleton.
Qed.

Lemma Home_only_links_to_sign_in_witness :
  Page.links Index.landing = ["/api/auth/signin"]
  /\ ("/members" ∉ Page.links Index.landing)
  /\ ("/join" ∉ Page.links Index.landing).
Proof.
  apply (Home_only_links_to_sign_in Sample.unauthenticated Index.fresh_router
           Index.landing).
  reflexivity.
Defined.

(** ** The session callback *)

(** X6.  The callback overwrites: the identifier and the flag of the session
    it returns are those of the user it was called with last, whatever an
    earlier call (with another user, or with none) or the incoming session
    had put there.  Two incoming sessions that agree on name, email, image
    and expiry come out equal. *)
Theorem callbacks_session_last_user_wins
    (session : JS.Session) (earlier : option Auth.AdapterUser)
    (user : Auth.AdapterUser) :
  Auth.callbacks_session (Auth.callbacks_session session earlier) (Some user)
  = Auth.callbacks_session session (Some user)
  /\ (forall session2,
        JS.name (JS.user session2) = JS.name (JS.user session) ->
        JS.email (JS.user session2) = JS.email (JS.user session) ->
        JS.image (JS.user session2) = JS.image (JS.user session) ->
        JS.expires session2 = JS.expires session ->
        Auth.callbacks_session session2 (Some user)
        = Auth.callbacks_session session (Some user)).
Proof.
  split.
  - destruct earlier; reflexivity.
  - intros session2 Hn He Hi Hx. unfold Auth.callbacks_session.
    by rewrite Hn, He, Hi, Hx.
Qed.

(** ** The checkout request *)

Lemma string_app_inv_head (s a b : string) : s ++ a = s ++ b -> a = b.
Proof. apply (inj (String.append s)). Qed.

Lemma string_prefix_app (s t : string) : String.prefix s (s ++ t) = true.
Proof.
  induction s as [|c s IH]; [by destruct t|].
  change (String c s ++ t) with (String c (s ++ t)). simpl.
  destruct (Ascii.ascii_dec c c); [exact IH | done].
Qed.

(** X7.  Whatever [BASE_URL] is, the success URL and the cancel URL of the
    checkout request both start with it and are never the same URL, so a
    cancelled checkout cannot come back to the success page; neither
    depends on the user. *)
Theorem create_params_urls_distinct (env : Stripe.Env) (user_id : string) :
  Stripe.success_url (Stripe.create_params env user_id)
    <> Stripe.cancel_url (Stripe.create_params env user_id)
  /\ String.prefix (Stripe.BASE_URL env)
       (Stripe.success_url (Stripe.create_params env user_id)) = true
  /\ String.prefix (Stripe.BASE_URL env)
       (Stripe.cancel_url (Stripe.create_params env user_id)) = true
  /\ (forall other,
        Stripe.success_url (Stripe.create_params env other)
        = Stripe.success_url (Stripe.create_params env user_id)
        /\ Stripe.cancel_url (Stripe.create_params env other)
           = Stripe.cancel_url (Stripe.create_params env user_id)).
Proof.
  simpl. split; [|split; [|split]].
  - intros H%string_app_inv_head. discriminate.
  - apply string_prefix_app.
  - apply string_prefix_app.
  - done.
Qed.

(** X8.  The [session.user.id] the checkout request is tagged with is the
    identifier the session callback copied from the persisted user: for a
    session that went through the callback, the request's
    [client_reference_id] is that user's id, whatever the session held
    before, and two users with different ids never get the same request. *)
Theorem checkout_reference_is_stored_user_id
    (env : Stripe.Env) (session : JS.Session) (user : Auth.AdapterUser) :
  let request u :=
    Stripe.create_params env
      <$> Stripe.authenticated_user_id
            (Some (Auth.callbacks_session session (Some u))) in
  request user = Some (Stripe.create_params env (Auth.id user))
  /\ Stripe.client_reference_id <$> request user = Some (Auth.id user)
  /\ (forall other, Auth.id other <> Auth.id user -> request other <> request user).
Proof.
  cbv zeta. simpl. repeat split.
  intros other Hne [= H]. done.
Qed.

(** ** The planned [Home] *)

(** X9.  Once the session is resolved, the [Home] of the upgrade plan takes
    the same decision as the present one: it redirects, and to the same
    route, exactly when the present [Home] pushes, and it goes on to render
    exactly when the present [Home] renders.  Like the present one it does
    not read the subscription flag. *)
Theorem planned_Home_agrees
    {A : Type} (rest : A)
    (ctx : Index.SessionContextValue) (r : Index.NextRouter) :
  Index.status ctx <> "loading" ->
  match UpgradePlan.Home (Index.data ctx) rest with
  | UpgradePlan.Redirected url =>
      Index.Home ctx r
      = (Index.ReturnUndefined, {| Index.pushed := Index.pushed r ++ [url] |})
  | UpgradePlan.Continued rest' =>
      rest' = rest /\ Index.Home ctx r = (Index.ReturnElement Index.landing, r)
  end.
Proof.
  intros Hst. destruct (Index.data ctx) as [s|] eqn:Hd; simpl.
  - exact (Home_session_eq ctx s r Hst Hd).
  - split; [reflexivity|]. exact (Home_anonymous_eq ctx r Hst Hd).
Qed.

Lemma planned_Home_agrees_witness :
  Index.Home (Sample.authenticated Sample.visitor_session) Index.fresh_router
  = (Index.ReturnUndefined, {| Index.pushed := ["/members"] |}).
Proof.
  apply (planned_Home_agrees Index.landing
           (Sample.authenticated Sample.visitor_session) Index.fresh_router).
  simpl. discriminate.
Defined.
